(** * zhmcclient: resource snapshots and the HBA manager

    A shallow embedding of [zhmcclient/_resource.py] ([BaseResource]) and
    [zhmcclient/_hba.py] ([HbaManager], [Hba]), and the properties of the
    lazy property cache, of listing and of creation that are proved of it.

    Python objects are modelled as follows.
    - A property dictionary is a mutable object: dictionaries live in a
      store ([heap]) and are named by their index in it, so that copying
      ([dict(d)], [d.copy()]) and aliasing are different things.
    - Property values (JSON data) are immutable trees; nothing in the two
      files updates a value in place.
    - A resource object is a record that every method takes and gives
      back, together with the store: [self] in, [self] out.
    - The session (the transport) and the clock are the environment: each
      answer may depend on the calls made so far, and every call is
      recorded in [calls].
    - An exception is an outcome, [Raise e], next to [Return a]. *)

From Stdlib Require Import ZArith.
From stdpp Require Import base option list gmap strings.

Local Open Scope string_scope.
Local Open Scope list_scope.

(** ** Values, exceptions and the store *)

(** A property value as the HMC returns it in JSON. *)
#[warnings="-register-all"]
Inductive value : Type :=
| VNone
| VBool (b : bool)
| VInt (n : Z)
| VStr (s : string)
| VList (items : list value)
| VDict (entries : list (string * value)).

(** A dictionary from property names to values. *)
Abbreviation props := (gmap string value).

(** The errors of the session, as the docstrings list them. *)
Inductive transport_error : Type :=
| HTTPError
| ParseError
| AuthError
| ConnectionError.

(** The exceptions that the two files raise or let through.
    [RecursionError] is how CPython ends a chain of calls deeper than its
    recursion limit. *)
Inductive exn : Type :=
| KeyError (key : string)
| TypeError
| AssertionError
| RecursionError
| TransportError (e : transport_error).

Inductive outcome (A : Type) : Type :=
| Return (a : A)
| Raise (e : exn).
Arguments Return {A} a.
Arguments Raise {A} e.

(** A request sent through the session. *)
Inductive call : Type :=
| Get (uri : value)
| Post (uri : value) (body : props)
| Delete (uri : value).

(** A reference to a dictionary object. *)
Abbreviation loc := nat.

Record State : Type := mkState {
  heap : list props;   (* the dictionary objects, by reference *)
  calls : list call;   (* the requests sent so far, oldest first *)
  ticks : nat          (* how often the clock was read *)
}.

(** The session object shared by all managers ([BaseManager.session]) and
    the system clock. Both are outside the two files; every function
    below takes them as [E]. *)
Module Session.
Record t : Type := mk {
  get : list call -> value -> transport_error + props;
  post : list call -> value -> props -> transport_error + props;
  delete : list call -> value -> transport_error + unit;
  time : list call -> nat -> Z
}.
End Session.

(** [d[...]] reads through a reference; a reference that names no object
    reads as the empty dictionary (Python has no such reference). *)
Definition deref (st : State) (l : loc) : props :=
  default ∅ (heap st !! l).

(** A new dictionary object with the given content. *)
Definition alloc (d : props) (st : State) : loc * State :=
  (length (heap st), mkState (heap st ++ [d]) (calls st) (ticks st)).

(** [d.update(other)]: the entries of [other] win. *)
Definition dict_update (l : loc) (other : props) (st : State) : State :=
  mkState (<[l := other ∪ deref st l]> (heap st)) (calls st) (ticks st).

(** [int(time.time())] *)
Definition now (E : Session.t) (st : State) : Z * State :=
  (Session.time E (calls st) (ticks st),
   mkState (heap st) (calls st) (S (ticks st))).

Definition session_get (E : Session.t) (uri : value) (st : State)
  : (transport_error + props) * State :=
  (Session.get E (calls st) uri,
   mkState (heap st) (calls st ++ [Get uri]) (ticks st)).

Definition session_post (E : Session.t) (uri : value) (body : props) (st : State)
  : (transport_error + props) * State :=
  (Session.post E (calls st) uri body,
   mkState (heap st) (calls st ++ [Post uri body]) (ticks st)).

Definition session_delete (E : Session.t) (uri : value) (st : State)
  : (transport_error + unit) * State :=
  (Session.delete E (calls st) uri,
   mkState (heap st) (calls st ++ [Delete uri]) (ticks st)).

(** Python's truth value of an object. *)
Definition truthy (v : value) : bool :=
  match v with
  | VNone => false
  | VBool b => b
  | VInt n => negb (n =? 0)%Z
  | VStr s => negb (String.eqb s "")
  | VList items => match items with [] => false | _ :: _ => true end
  | VDict entries => match entries with [] => false | _ :: _ => true end
  end.

(** What [for x in v] runs over, or [None] where Python raises TypeError
    because [v] is not iterable. A string yields its characters, a
    dictionary its keys. *)
Definition iterate (v : value) : option (list value) :=
  match v with
  | VList items => Some items
  | VStr s => Some ((fun c => VStr (String c EmptyString)) <$> String.list_ascii_of_string s)
  | VDict entries => Some ((fun kv => VStr kv.1) <$> entries)
  | VNone | VBool _ | VInt _ => None
  end.

(** ** The objects *)

(** The class of a manager object; [isinstance(manager, HbaManager)] looks
    at nothing else. *)
Inductive manager_class : Type :=
| HbaManagerClass
| OtherManagerClass (name : string).

(** A resource's reference back to its manager. *)
Record manager_ref : Type := mkManagerRef {
  class_of : manager_class;
  manager_id : nat
}.

Definition isinstance_HbaManager (manager : manager_ref) : bool :=
  match class_of manager with
  | HbaManagerClass => true
  | OtherManagerClass _ => false
  end.

(** ** [BaseResource] ([_resource.py]) *)

Module BaseResource.

(** The four attributes that [__init__] sets. *)
Record t : Type := mk {
  _manager : manager_ref;
  _properties : loc;
  _properties_timestamp : Z;
  _full_properties : bool
}.

Section methods.
Variable E : Session.t.

(** [BaseResource.__init__(self, manager, properties)] *)
Definition __init__ (manager : manager_ref) (properties : loc) (st : State)
  : t * State :=
  let '(copy, st) := alloc (deref st properties) st in
  let '(timestamp, st) := now E st in
  (mk manager copy timestamp false, st).

(** The accessors [properties], [manager], [full_properties] and
    [properties_timestamp] return the attribute itself. *)
Definition properties (self : t) : loc := _properties self.
Definition manager (self : t) : manager_ref := _manager self.
Definition full_properties (self : t) : bool := _full_properties self.
Definition properties_timestamp (self : t) : Z := _properties_timestamp self.

(** [get_property] and [pull_full_properties] call each other. [fuel]
    bounds the depth of that chain of calls, as the interpreter's
    recursion limit does. *)
Fixpoint get_property (fuel : nat) (self : t) (name : string) (st : State)
  {struct fuel} : outcome value * t * State :=
  match fuel with
  | O => (Raise RecursionError, self, st)
  | S fuel =>
      match deref st (_properties self) !! name with
      | Some v => (Return v, self, st)
      | None =>
          if full_properties self then (Raise (KeyError name), self, st)
          else
            match pull_full_properties fuel self st with
            | (Raise e, self, st) => (Raise e, self, st)
            | (Return _, self, st) =>
                match deref st (_properties self) !! name with
                | Some v => (Return v, self, st)
                | None => (Raise (KeyError name), self, st)
                end
            end
      end
  end
with pull_full_properties (fuel : nat) (self : t) (st : State)
  {struct fuel} : outcome unit * t * State :=
  match fuel with
  | O => (Raise RecursionError, self, st)
  | S fuel =>
      match get_property fuel self "object-uri" st with
      | (Raise e, self, st) => (Raise e, self, st)
      | (Return uri, self, st) =>
          match session_get E uri st with
          | (inl e, st) => (Raise (TransportError e), self, st)
          | (inr full_properties, st) =>
              let '(copy, st) := alloc full_properties st in
              let '(timestamp, st) := now E st in
              (Return tt, mk (manager self) copy timestamp true, st)
          end
      end
  end.

End methods.
End BaseResource.


(** ** [Hba] ([_hba.py]) *)

(** The classes [Partition] and [Port] are outside the two files; of each
    only what [_hba.py] reads is kept: the inherited resource state, and
    the [uri] attribute (a string). *)
Record Partition : Type := mkPartition {
  partition_resource : BaseResource.t;
  partition_uri : string
}.

Record Port : Type := mkPort {
  port_uri : string
}.

Module Hba.

(** An [Hba] object: the state it inherits from [BaseResource], and the
    attribute [_uri] that its methods read (a string, by the comment in
    [__init__]: "uri (string): Canonical URI path of the resource"). *)
Record t : Type := mk {
  base : BaseResource.t;
  _uri : string
}.

(** A constructor called as [C(manager, uri, name, properties)], where
    [name] and [properties] may be [None]. *)
Definition init_t : Type :=
  manager_ref -> value -> option value -> option loc -> State -> outcome t * State.

Section methods.
Variable E : Session.t.

(** [super(Hba, self).__init__], the initialiser of the base class. *)
Variable super___init__ : init_t.

(** [Hba.__init__(self, manager, uri, name=None, properties=None)] *)
Definition __init__ : init_t := fun manager uri name properties st =>
  if negb (isinstance_HbaManager manager) then (Raise AssertionError, st)
  else super___init__ manager uri name properties st.

(** [pull_full_properties], inherited from [BaseResource]. *)
Definition pull_full_properties (fuel : nat) (self : t) (st : State)
  : outcome unit * t * State :=
  let '(r, b, st) := BaseResource.pull_full_properties E fuel (base self) st in
  (r, mk b (_uri self), st).

(** [Hba.delete(self)] *)
Definition delete (self : t) (st : State) : outcome unit * t * State :=
  match session_delete E (VStr (_uri self)) st with
  | (inl e, st) => (Raise (TransportError e), self, st)
  | (inr _, st) => (Return tt, self, st)
  end.

(** [Hba.update_properties(self, properties)] *)
Definition update_properties (self : t) (properties : loc) (st : State)
  : outcome unit * t * State :=
  match session_post E (VStr (_uri self)) (deref st properties) st with
  | (inl e, st) => (Raise (TransportError e), self, st)
  | (inr _, st) => (Return tt, self, st)
  end.

(** [Hba.reassign_port(self, port)] *)
Definition reassign_port (self : t) (port : Port) (st : State)
  : outcome unit * t * State :=
  let body : props := {[ "adapter-port-uri" := VStr (port_uri port) ]} in
  match session_post E
          (VStr (_uri self +:+ "/operations/reassign-storage-adapter-port"))
          body st with
  | (inl e, st) => (Raise (TransportError e), self, st)
  | (inr _, st) => (Return tt, self, st)
  end.

End methods.

(** The base class that [_resource.py] gives [Hba]: its [__init__] is
    declared as [__init__(self, manager, properties)] (_resource.py, line
    40), and [Hba.__init__] calls it as
    [__init__(manager, uri, name, properties)] (_hba.py, line 195). Four
    positional arguments do not bind to two parameters: the call raises
    TypeError before the body of [BaseResource.__init__] runs. *)
Definition BaseResource___init__ : init_t := fun manager uri name properties st =>
  (Raise TypeError, st).

(** The expression [Hba(manager, uri, name, properties)] in the two files
    as they stand. *)
Definition new : init_t := __init__ BaseResource___init__.

End Hba.

(** ** [HbaManager] ([_hba.py]) *)

Module HbaManager.

(** The manager of the HBAs of one partition. [_parent] is the partition
    that [__init__] hands to [BaseManager]. *)
Record t : Type := mk {
  _parent : Partition;
  ident : nat
}.

Definition partition (self : t) : Partition := _parent self.

(** The reference to [self] that a resource keeps as its manager. *)
Definition ref (self : t) : manager_ref := mkManagerRef HbaManagerClass (ident self).

Definition with_partition_resource (self : t) (r : BaseResource.t) : t :=
  mk (mkPartition r (partition_uri (partition self))) (ident self).

Section methods.
Variable E : Session.t.

(** [BaseManager] is outside the two files. [list] uses two of its
    members: [self.resource_class], the class that [HbaManager.__init__]
    hands to it ([resource_class=Hba]), called to construct a resource;
    and [self._matches_filters], which may read, and so complete, the
    resource it is given. *)
Variable resource_class : Hba.init_t.
Variable _matches_filters :
  t -> Hba.t -> option props -> State -> outcome bool * Hba.t * State.

(** The body of the loop [for uri in uris] of [list], from the elements
    that are still to come and the list built so far. *)
Fixpoint list_loop (fuel : nat) (self : t) (full_properties : bool)
  (filter_args : option props) (uris : list value)
  (resource_obj_list : list Hba.t) (st : State)
  : outcome (list Hba.t) * State :=
  match uris with
  | [] => (Return resource_obj_list, st)
  | uri :: uris =>
      match resource_class (ref self) uri None None st with
      | (Raise e, st) => (Raise e, st)
      | (Return resource_obj, st) =>
          match _matches_filters self resource_obj filter_args st with
          | (Raise e, _, st) => (Raise e, st)
          | (Return false, _, st) =>
              list_loop fuel self full_properties filter_args uris
                resource_obj_list st
          | (Return true, resource_obj, st) =>
              if full_properties then
                match Hba.pull_full_properties E fuel resource_obj st with
                | (Raise e, _, st) => (Raise e, st)
                | (Return _, resource_obj, st) =>
                    list_loop fuel self full_properties filter_args uris
                      (resource_obj_list ++ [resource_obj]) st
                end
              else
                list_loop fuel self full_properties filter_args uris
                  (resource_obj_list ++ [resource_obj]) st
          end
      end
  end.

(** The initialiser of the base class of [Hba], which [Hba.__init__]
    calls. *)
Variable super___init__ : Hba.init_t.

(** [HbaManager.create(self, properties)] *)
Definition create (self : t) (properties : loc) (st : State)
  : outcome Hba.t * State :=
  match session_post E (VStr (partition_uri (partition self) +:+ "/hbas"))
          (deref st properties) st with
  | (inl e, st) => (Raise (TransportError e), st)
  | (inr result, st) =>
      let '(props, st) := alloc (deref st properties) st in
      let st := dict_update props result st in
      match deref st props !! "element-uri" with
      | None => (Raise (KeyError "element-uri"), st)
      | Some uri => Hba.__init__ super___init__ (ref self) uri None (Some props) st
      end
  end.

(** [HbaManager.list(self, full_properties=False, filter_args=None)].
    The partition is given back with the manager: reading ['hba-uris']
    may complete it. *)
Definition list (fuel : nat) (self : t) (full_properties : bool)
  (filter_args : option props) (st : State)
  : outcome (list Hba.t) * t * State :=
  match BaseResource.get_property E fuel
          (partition_resource (partition self)) "hba-uris" st with
  | (Raise e, p, st) => (Raise e, with_partition_resource self p, st)
  | (Return uris, p, st) =>
      let self := with_partition_resource self p in
      if truthy uris then
        match iterate uris with
        | None => (Raise TypeError, self, st)
        | Some uris =>
            let '(r, st) :=
              list_loop fuel self full_properties filter_args uris [] st in
            (r, self, st)
        end
      else (Return [], self, st)
  end.

End methods.
End HbaManager.

(** ** Reading a result *)

(** The URIs of the resources of a list, in its order. *)
Definition uris_of (objs : list Hba.t) : list value :=
  (fun obj => VStr (Hba._uri obj)) <$> objs.

(** ** Concrete situations

    The inputs at which the properties below are also evaluated: the
    situations of the scenarios (a partition [/api/partitions/1] with
    HBAs [/api/partitions/1/hbas/10] and following). *)

Module Scenario.

Definition partition_manager : manager_ref :=
  mkManagerRef (OtherManagerClass "PartitionManager") 0.

(** The manager of the HBAs of partition 1, whose snapshot is the given
    dictionary and is complete or not. *)
Definition manager_of (snapshot : loc) (full : bool) : HbaManager.t :=
  HbaManager.mk
    (mkPartition (BaseResource.mk partition_manager snapshot 0 full) "/api/partitions/1")
    1.

Definition manager : HbaManager.t := manager_of 0 false.

(** A session that is down: every request fails. *)
Definition down : Session.t :=
  Session.mk (fun _ _ => inl ConnectionError) (fun _ _ _ => inl ConnectionError)
             (fun _ _ => inl ConnectionError) (fun _ _ => 0%Z).

(** A session whose [post] answers as the HMC does in scenario D, and
    whose [get] knows the partition. *)
Definition created : props :=
  {[ "element-uri" := VStr "/api/partitions/1/hbas/99";
     "name" := VStr "x";
     "type" := VStr "fcp" ]}.

Definition partition_properties : props :=
  {[ "object-uri" := VStr "/api/partitions/1";
     "name" := VStr "part1";
     "hba-uris" := VList [VStr "/api/partitions/1/hbas/10"] ]}.

Definition up : Session.t :=
  Session.mk (fun _ _ => inr partition_properties) (fun _ _ _ => inr created)
             (fun _ _ => inr tt) (fun _ n => (1000 + Z.of_nat n)%Z).

(** An incomplete resource that knows its ['element-uri'] and nothing
    else: an HBA as a listing names it. *)
Definition bare : BaseResource.t := BaseResource.mk (HbaManager.ref manager) 0 0 false.
Definition bare_store : State :=
  mkState [ {[ "element-uri" := VStr "/api/partitions/1/hbas/10" ]} ] [] 0.

(** A partition from a listing: ['object-uri'] and ['name'] only, first
    incomplete, then marked complete. *)
Definition short : BaseResource.t := BaseResource.mk partition_manager 0 0 false.
Definition complete : BaseResource.t := BaseResource.mk partition_manager 0 0 true.
Definition short_store : State :=
  mkState [ {[ "object-uri" := VStr "/api/partitions/1"; "name" := VStr "part1" ]} ] [] 0.

(** A resource class that works: it keeps the URI, which must be a
    string, and starts from an empty snapshot. *)
Definition resource_class : Hba.init_t := fun manager uri name properties st =>
  match uri with
  | VStr s =>
      let '(snapshot, st) := alloc ∅ st in
      (Return (Hba.mk (BaseResource.mk manager snapshot 0 false) s), st)
  | _ => (Raise TypeError, st)
  end.

(** A filter that looks at the URI alone and drops HBA 11. *)
Definition drop_11 (self : HbaManager.t) (obj : Hba.t) (filter_args : option props)
  (st : State) : outcome bool * Hba.t * State :=
  (Return (negb (String.eqb (Hba._uri obj) "/api/partitions/1/hbas/11")), obj, st).

(** A store with one dictionary: the snapshot of a partition with three
    HBAs. *)
Definition three_hbas : State :=
  mkState
    [ {[ "object-uri" := VStr "/api/partitions/1";
         "hba-uris" := VList [VStr "/api/partitions/1/hbas/10";
                              VStr "/api/partitions/1/hbas/11";
                              VStr "/api/partitions/1/hbas/12"] ]} ]
    [] 0.

(** A base initialiser that fits the call in [Hba.__init__]: it does
    with [manager] and [properties] what [BaseResource.__init__] does,
    and keeps the URI, which must be a string. *)
Definition fitting_init (E : Session.t) : Hba.init_t := fun manager uri name properties st =>
  match uri, properties with
  | VStr s, Some properties =>
      let '(b, st) := BaseResource.__init__ E manager properties st in
      (Return (Hba.mk b s), st)
  | _, _ => (Raise TypeError, st)
  end.

End Scenario.

(** A listing whose resources can be completed: the resource class
    starts each snapshot with ['object-uri'], and the session answers a
    GET with the full set of that HBA. *)
Module Listing.

Definition resource_class : Hba.init_t := fun manager uri name properties st =>
  match uri with
  | VStr s =>
      let '(snapshot, st) := alloc {[ "object-uri" := uri ]} st in
      (Return (Hba.mk (BaseResource.mk manager snapshot 0 false) s), st)
  | _ => (Raise TypeError, st)
  end.

Definition session : Session.t :=
  Session.mk
    (fun _ uri => inr {[ "object-uri" := uri; "device-number" := VStr "01" ]})
    (fun _ _ _ => inl HTTPError) (fun _ _ => inr tt) (fun _ n => Z.of_nat n).

(** A session whose answers have no URI in them. *)
Definition anonymous : Session.t :=
  Session.mk (fun _ _ => inr {[ "name" := VStr "part1" ]})
    (fun _ _ _ => inr {[ "name" := VStr "x" ]}) (fun _ _ => inr tt) (fun _ _ => 0%Z).

End Listing.

(** * Properties *)

(** ** The store *)

Lemma deref_alloc_old d st l :
  l < length (heap st) → deref (alloc d st).2 l = deref st l.
Proof.
  intros Hl. unfold deref, alloc; simpl. by rewrite lookup_app_l.
Qed.

Lemma deref_alloc_new d st : deref (alloc d st).2 (alloc d st).1 = d.
Proof.
  unfold deref, alloc; simpl.
  by rewrite lookup_app_r, Nat.sub_diag by lia.
Qed.

Lemma deref_snoc h d c t : deref (mkState (h ++ [d]) c t) (length h) = d.
Proof.
  unfold deref; cbn [heap]. by rewrite lookup_app_r, Nat.sub_diag by lia.
Qed.

Lemma union_lookup_left (other d : props) k v :
  other !! k = Some v → (other ∪ d) !! k = Some v.
Proof. intros H. by apply lookup_union_Some_l. Qed.

Lemma union_lookup_right (other d : props) k :
  other !! k = None → (other ∪ d) !! k = d !! k.
Proof. intros H. by rewrite lookup_union_r. Qed.

(** ** [BaseResource]: the lazy property cache *)

Section BaseResource_facts.
Variable E : Session.t.

Import BaseResource.

(** A property of the snapshot is returned as it is: no request, no
    change. *)
Lemma get_property_hit fuel self name v st :
  deref st (_properties self) !! name = Some v →
  get_property E (S fuel) self name st = (Return v, self, st).
Proof. intros H. simpl. by rewrite H. Qed.

(** A complete resource does not look further. *)
Lemma get_property_miss fuel self name st :
  _full_properties self = true →
  deref st (_properties self) !! name = None →
  get_property E (S fuel) self name st = (Raise (KeyError name), self, st).
Proof.
  intros Hfull Hname. simpl. unfold full_properties. by rewrite Hname, Hfull.
Qed.

(** An incomplete resource without ['object-uri'] cannot be completed:
    [pull_full_properties] asks [get_property] for ['object-uri'], which
    asks [pull_full_properties], and so on until the budget is spent. No
    request is sent. *)
Lemma pull_without_object_uri fuel self st :
  _full_properties self = false →
  deref st (_properties self) !! "object-uri" = None →
  pull_full_properties E fuel self st = (Raise RecursionError, self, st)
  ∧ get_property E fuel self "object-uri" st = (Raise RecursionError, self, st).
Proof.
  intros Hfull Huri. induction fuel as [|fuel [IHpull IHget]]; [done|].
  split; simpl.
  - by rewrite IHget.
  - unfold full_properties. by rewrite Huri, Hfull, IHpull.
Qed.

Lemma get_property_without_object_uri fuel self name st :
  _full_properties self = false →
  deref st (_properties self) !! name = None →
  deref st (_properties self) !! "object-uri" = None →
  get_property E fuel self name st = (Raise RecursionError, self, st).
Proof.
  intros Hfull Hname Huri. destruct fuel as [|fuel]; [done|]. simpl.
  unfold full_properties. rewrite Hname, Hfull.
  by rewrite (proj1 (pull_without_object_uri fuel self st Hfull Huri)).
Qed.

(** Reading ['object-uri'] never changes the resource or the store. *)
Lemma get_object_uri_frame fuel self st :
  ∃ r, get_property E fuel self "object-uri" st = (r, self, st).
Proof.
  destruct fuel as [|fuel]; [by eexists|]. simpl.
  destruct (deref st (_properties self) !! "object-uri") as [v|] eqn:Huri;
    [by eexists|].
  unfold full_properties.
  destruct (_full_properties self) eqn:Hfull; [by eexists|].
  rewrite (proj1 (pull_without_object_uri fuel self st Hfull Huri)).
  by eexists.
Qed.

(** What a pull does for a resource that knows its ['object-uri']: one
    request; on an error nothing else happens, on an answer the snapshot
    is a new dictionary with the answer's content. *)
Lemma pull_with_object_uri fuel self uri st :
  deref st (_properties self) !! "object-uri" = Some uri →
  pull_full_properties E (S (S fuel)) self st =
    match Session.get E (calls st) uri with
    | inl e =>
        (Raise (TransportError e), self,
         mkState (heap st) (calls st ++ [Get uri]) (ticks st))
    | inr full =>
        (Return tt,
         mk (_manager self) (length (heap st))
            (Session.time E (calls st ++ [Get uri]) (ticks st)) true,
         mkState (heap st ++ [full]) (calls st ++ [Get uri]) (S (ticks st)))
    end.
Proof.
  intros Huri.
  change (pull_full_properties E (S (S fuel)) self st) with
    (match get_property E (S fuel) self "object-uri" st with
     | (Raise e, self, st) => (Raise e, self, st)
     | (Return uri, self, st) =>
         match session_get E uri st with
         | (inl e, st) => (Raise (TransportError e), self, st)
         | (inr full_properties, st) =>
             let '(copy, st) := alloc full_properties st in
             let '(timestamp, st) := now E st in
             (Return tt, mk (manager self) copy timestamp true, st)
         end
     end).
  rewrite (get_property_hit fuel self _ uri st Huri).
  unfold session_get. by destruct (Session.get E (calls st) uri).
Qed.

(** The single retry: an incomplete resource that knows its
    ['object-uri'] answers a question about an absent property with one
    request, and with the value or KeyError according to the answer. *)
Lemma get_property_retry fuel self name uri st :
  _full_properties self = false →
  deref st (_properties self) !! name = None →
  deref st (_properties self) !! "object-uri" = Some uri →
  get_property E (S (S (S fuel))) self name st =
    let self' :=
      mk (_manager self) (length (heap st))
         (Session.time E (calls st ++ [Get uri]) (ticks st)) true in
    match Session.get E (calls st) uri with
    | inl e =>
        (Raise (TransportError e), self,
         mkState (heap st) (calls st ++ [Get uri]) (ticks st))
    | inr full =>
        (match full !! name with
         | Some v => Return v
         | None => Raise (KeyError name)
         end,
         self',
         mkState (heap st ++ [full]) (calls st ++ [Get uri]) (S (ticks st)))
    end.
Proof.
  intros Hfull Hname Huri.
  change (get_property E (S (S (S fuel))) self name st) with
    (match deref st (_properties self) !! name with
     | Some v => (Return v, self, st)
     | None =>
         if full_properties self then (Raise (KeyError name), self, st)
         else
           match pull_full_properties E (S (S fuel)) self st with
           | (Raise e, self, st) => (Raise e, self, st)
           | (Return _, self, st) =>
               match deref st (_properties self) !! name with
               | Some v => (Return v, self, st)
               | None => (Raise (KeyError name), self, st)
               end
           end
     end).
  unfold full_properties. rewrite Hname, Hfull.
  rewrite (pull_with_object_uri fuel self uri st Huri).
  destruct (Session.get E (calls st) uri) as [e|full]; [done|].
  cbn [_properties]. unfold deref; cbn [heap].
  rewrite lookup_app_r, Nat.sub_diag by lia. cbn.
  by destruct (full !! name).
Qed.

End BaseResource_facts.

Section BaseResource_claims.
Variable E : Session.t.

Import BaseResource.

(** C1, at the input where the code leaves it: a resource from a listing
    of HBAs knows its ['element-uri'] only; asked for ['name'], it sends
    no request at all (the claim: exactly one) and ends, whatever the
    recursion budget, by exhausting it. *)
Theorem get_property_bare_sends_nothing fuel :
  get_property E fuel Scenario.bare "name" Scenario.bare_store
  = (Raise RecursionError, Scenario.bare, Scenario.bare_store).
Proof. by apply get_property_without_object_uri. Qed.

(** C2: when [pull_full_properties] ends with an exception, and so when
    its request fails, the resource (snapshot reference, completeness,
    timestamp) and every dictionary of the store are as they were. *)
Theorem pull_full_properties_atomic fuel self st e self' st' :
  pull_full_properties E fuel self st = (Raise e, self', st') →
  self' = self
  ∧ heap st' = heap st
  ∧ deref st' (_properties self') = deref st (_properties self)
  ∧ _full_properties self' = _full_properties self.
Proof.
  destruct fuel as [|fuel]; simpl.
  { intros [= <- <- <-]. done. }
  destruct (get_object_uri_frame E fuel self st) as [r ->].
  destruct r as [uri|e0]; [|by intros [= <- <- <-]].
  unfold session_get.
  destruct (Session.get E (calls st) uri) as [e0|full]; [|done].
  by intros [= <- <- <-].
Qed.

(** C3: a complete resource asked for a property that it does not have
    raises KeyError and sends no request: resource and state, with the
    requests sent so far, are unchanged, so that asking again gives the
    same. *)
Theorem get_property_complete_missing fuel self name st :
  _full_properties self = true →
  deref st (_properties self) !! name = None →
  ∃ st',
    get_property E (S fuel) self name st = (Raise (KeyError name), self, st')
    ∧ calls st' = calls st
    ∧ st' = st.
Proof.
  intros Hfull Hname. exists st. by rewrite get_property_miss.
Qed.

(** C4, where the code leaves it: for an incomplete resource without
    ['object-uri'], a question about an absent property exhausts every
    recursion budget: each pull asks for ['object-uri'] and so starts
    another pull. *)
Theorem get_property_pull_recurses fuel self name st :
  _full_properties self = false →
  deref st (_properties self) !! name = None →
  deref st (_properties self) !! "object-uri" = None →
  get_property E fuel self name st = (Raise RecursionError, self, st)
  ∧ pull_full_properties E fuel self st = (Raise RecursionError, self, st).
Proof.
  intros Hfull Hname Huri. split.
  - by apply get_property_without_object_uri.
  - by apply pull_without_object_uri.
Qed.

End BaseResource_claims.

Lemma pull_full_properties_atomic_witness :
  let st' := mkState (heap Scenario.short_store) [Get (VStr "/api/partitions/1")] 0 in
  BaseResource.pull_full_properties Scenario.down 2 Scenario.short Scenario.short_store
  = (Raise (TransportError ConnectionError), Scenario.short, st')
  ∧ (Scenario.short = Scenario.short
     ∧ heap st' = heap Scenario.short_store
     ∧ deref st' (BaseResource._properties Scenario.short)
       = deref Scenario.short_store (BaseResource._properties Scenario.short)
     ∧ BaseResource._full_properties Scenario.short
       = BaseResource._full_properties Scenario.short).
Proof.
  split; [vm_compute; reflexivity|].
  apply (pull_full_properties_atomic Scenario.down 2 Scenario.short
           Scenario.short_store (TransportError ConnectionError)).
  vm_compute; reflexivity.
Defined.

Lemma get_property_complete_missing_witness :
  ∃ st',
    BaseResource.get_property Scenario.up 1 Scenario.complete "status" Scenario.short_store
    = (Raise (KeyError "status"), Scenario.complete, st')
    ∧ calls st' = calls Scenario.short_store
    ∧ st' = Scenario.short_store.
Proof.
  apply (get_property_complete_missing Scenario.up 0 Scenario.complete "status"
           Scenario.short_store); vm_compute; reflexivity.
Defined.

Lemma get_property_pull_recurses_witness :
  BaseResource.get_property Scenario.up 1000 Scenario.bare "name" Scenario.bare_store
  = (Raise RecursionError, Scenario.bare, Scenario.bare_store)
  ∧ BaseResource.pull_full_properties Scenario.up 1000 Scenario.bare Scenario.bare_store
  = (Raise RecursionError, Scenario.bare, Scenario.bare_store).
Proof.
  apply (get_property_pull_recurses Scenario.up 1000 Scenario.bare "name"
           Scenario.bare_store); vm_compute; reflexivity.
Defined.

(** ** [Hba]: construction and the operations on the HMC *)

(** The two files together: the manager passes the check of
    [Hba.__init__], and the call of the base initialiser raises
    TypeError. No [Hba] is constructed. *)
Lemma Hba_new_raises manager uri name properties st :
  Hba.new manager uri name properties st
  = (Raise (if isinstance_HbaManager manager then TypeError else AssertionError), st).
Proof.
  unfold Hba.new, Hba.__init__, Hba.BaseResource___init__.
  by destruct (isinstance_HbaManager manager).
Qed.

(** With a base initialiser that works, and a manager that is an
    [HbaManager], [Hba.__init__] gives what the base initialiser gives. *)
Lemma Hba_init_HbaManager super manager uri name properties st :
  isinstance_HbaManager manager = true →
  Hba.__init__ super manager uri name properties st
  = super manager uri name properties st.
Proof. intros H. unfold Hba.__init__. by rewrite H. Qed.

(** C10: whatever the base initialiser does, [Hba.__init__] with a
    manager that is not an [HbaManager] raises AssertionError with the
    state untouched (the base initialiser is not reached); and a
    construction that succeeds had an [HbaManager], and is the base
    initialiser's. *)
Theorem Hba_init_requires_HbaManager super manager uri name properties st :
  (isinstance_HbaManager manager = false →
   Hba.__init__ super manager uri name properties st = (Raise AssertionError, st))
  ∧ (∀ self st',
       Hba.__init__ super manager uri name properties st = (Return self, st') →
       isinstance_HbaManager manager = true
       ∧ super manager uri name properties st = (Return self, st')).
Proof.
  unfold Hba.__init__. split.
  - by intros ->.
  - intros self st'. by destruct (isinstance_HbaManager manager).
Qed.

Lemma Hba_init_requires_HbaManager_witness :
  Hba.__init__ Scenario.resource_class Scenario.partition_manager
    (VStr "/api/partitions/1/hbas/10") None None Scenario.short_store
  = (Raise AssertionError, Scenario.short_store)
  ∧ isinstance_HbaManager (HbaManager.ref Scenario.manager) = true.
Proof.
  split.
  - apply (proj1 (Hba_init_requires_HbaManager Scenario.resource_class
                    Scenario.partition_manager (VStr "/api/partitions/1/hbas/10")
                    None None Scenario.short_store)).
    reflexivity.
  - eapply (proj2 (Hba_init_requires_HbaManager Scenario.resource_class
                     (HbaManager.ref Scenario.manager) (VStr "/api/partitions/1/hbas/10")
                     None None Scenario.short_store)).
    vm_compute; reflexivity.
Defined.

(** C8: [delete], [update_properties] and [reassign_port] each send one
    request, whose answer decides between returning and raising, and
    nothing else: the [Hba] object (snapshot reference, completeness,
    timestamp) and every dictionary of the store are as before. *)
Theorem Hba_operations_leave_snapshot E self properties port st :
  Hba.delete E self st
  = (match Session.delete E (calls st) (VStr (Hba._uri self)) with
     | inl e => Raise (TransportError e)
     | inr _ => Return tt
     end,
     self,
     mkState (heap st) (calls st ++ [Delete (VStr (Hba._uri self))]) (ticks st))
  ∧ Hba.update_properties E self properties st
  = (match Session.post E (calls st) (VStr (Hba._uri self)) (deref st properties) with
     | inl e => Raise (TransportError e)
     | inr _ => Return tt
     end,
     self,
     mkState (heap st)
       (calls st ++ [Post (VStr (Hba._uri self)) (deref st properties)]) (ticks st))
  ∧ Hba.reassign_port E self port st
  = (match Session.post E (calls st)
             (VStr (Hba._uri self +:+ "/operations/reassign-storage-adapter-port"))
             {[ "adapter-port-uri" := VStr (port_uri port) ]} with
     | inl e => Raise (TransportError e)
     | inr _ => Return tt
     end,
     self,
     mkState (heap st)
       (calls st ++
        [Post (VStr (Hba._uri self +:+ "/operations/reassign-storage-adapter-port"))
              {[ "adapter-port-uri" := VStr (port_uri port) ]}])
       (ticks st)).
Proof.
  unfold Hba.delete, Hba.update_properties, Hba.reassign_port,
    session_delete, session_post.
  repeat split.
  - by destruct (Session.delete E (calls st) (VStr (Hba._uri self))).
  - by destruct (Session.post E (calls st) (VStr (Hba._uri self)) (deref st properties)).
  - by destruct (Session.post E (calls st) _ _).
Qed.

(** ** [HbaManager.create] *)

(** What [create] does, whatever the base initialiser of [Hba]: one
    request; then a new dictionary, the input overlaid by the answer (the
    answer wins), while the caller's dictionary and all others stay; then
    [Hba.__init__] with that dictionary and its ['element-uri']. *)
Lemma create_unfold E super self properties st :
  HbaManager.create E super self properties st =
    let uri := VStr (partition_uri (HbaManager.partition self) +:+ "/hbas") in
    let body := deref st properties in
    match Session.post E (calls st) uri body with
    | inl e =>
        (Raise (TransportError e),
         mkState (heap st) (calls st ++ [Post uri body]) (ticks st))
    | inr result =>
        let st' :=
          mkState (heap st ++ [result ∪ body]) (calls st ++ [Post uri body])
            (ticks st) in
        match (result ∪ body) !! "element-uri" with
        | None => (Raise (KeyError "element-uri"), st')
        | Some element_uri =>
            Hba.__init__ super (HbaManager.ref self) element_uri None
              (Some (length (heap st))) st'
        end
    end.
Proof.
  unfold HbaManager.create, session_post. cbn zeta.
  destruct (Session.post E (calls st) _ _) as [e|result]; [done|].
  unfold alloc, dict_update, deref; cbn [heap calls ticks fst snd].
  rewrite lookup_app_r, Nat.sub_diag by lia. cbn [lookup list_lookup].
  rewrite insert_app_r_alt, Nat.sub_diag by lia. cbn [insert list_insert].
  rewrite lookup_app_r, Nat.sub_diag by lia. done.
Qed.

(** The merge is as [create] documents it. With a base initialiser that
    fits the call in [Hba.__init__], [create] returns a resource whose
    snapshot is the input overlaid by the answer: the answer's value for
    every key of the answer, the input's value for every other key. *)
Lemma create_with_fitting_init E self properties st result s :
  Session.post E (calls st)
    (VStr (partition_uri (HbaManager.partition self) +:+ "/hbas"))
    (deref st properties) = inr result →
  (result ∪ deref st properties) !! "element-uri" = Some (VStr s) →
  ∃ obj st',
    HbaManager.create E (Scenario.fitting_init E) self properties st = (Return obj, st')
    ∧ Hba._uri obj = s
    ∧ deref st' (BaseResource._properties (Hba.base obj)) = result ∪ deref st properties
    ∧ (∀ k v, result !! k = Some v →
         deref st' (BaseResource._properties (Hba.base obj)) !! k = Some v)
    ∧ (∀ k, result !! k = None →
         deref st' (BaseResource._properties (Hba.base obj)) !! k
         = deref st properties !! k).
Proof.
  intros Hpost Huri. rewrite create_unfold. cbn zeta. rewrite Hpost, Huri.
  unfold Hba.__init__, Scenario.fitting_init, BaseResource.__init__, alloc, now.
  cbn [isinstance_HbaManager HbaManager.ref class_of negb heap calls ticks].
  eexists _, _. split; [reflexivity|].
  cbn [Hba._uri Hba.base BaseResource._properties].
  rewrite !deref_snoc.
  repeat split.
  - intros k v Hk. by apply union_lookup_left.
  - intros k Hk. by apply union_lookup_right.
Qed.

Example create_scenario_D_with_fitting_init :
  HbaManager.create Scenario.up (Scenario.fitting_init Scenario.up) Scenario.manager 0
    (mkState [ {[ "name" := VStr "x" ]} ] [] 0)
  = (Return (Hba.mk (BaseResource.mk (HbaManager.ref Scenario.manager) 2 1000 false)
               "/api/partitions/1/hbas/99"),
     mkState [ {[ "name" := VStr "x" ]}; Scenario.created; Scenario.created ]
       [Post (VStr "/api/partitions/1/hbas") {[ "name" := VStr "x" ]}] 1).
Proof. vm_compute. reflexivity. Qed.

(** C6, at the input of scenario D, in the two files as they stand:
    [create({"name": "x"})] sends its request and builds the three-key
    dictionary next to the caller's, and then raises TypeError in the
    constructor of [Hba]. No resource is returned (the claim: a resource
    with the three-key mapping). *)
Theorem create_scenario_D_raises :
  HbaManager.create Scenario.up Hba.BaseResource___init__ Scenario.manager 0
    (mkState [ {[ "name" := VStr "x" ]} ] [] 0)
  = (Raise TypeError,
     mkState [ {[ "name" := VStr "x" ]}; Scenario.created ]
       [Post (VStr "/api/partitions/1/hbas") {[ "name" := VStr "x" ]}] 0).
Proof. vm_compute. reflexivity. Qed.

(** C9: neither [BaseResource.__init__] nor [create] keeps or changes
    the caller's dictionary. The snapshot of a new resource is another
    object with the same content, which a later change of the caller's
    dictionary does not reach; and after [create], whatever its outcome,
    the caller's dictionary is as it was — provided the base initialiser
    of [Hba], like everything in the two files, leaves existing
    dictionaries alone. *)
Theorem caller_properties_are_copied E :
  (∀ manager properties st,
     properties < length (heap st) →
     ∀ self st', BaseResource.__init__ E manager properties st = (self, st') →
     BaseResource._properties self ≠ properties
     ∧ deref st' (BaseResource._properties self) = deref st properties
     ∧ heap st' !! properties = heap st !! properties
     ∧ ∀ d, deref (mkState (<[properties := d]> (heap st')) (calls st') (ticks st'))
              (BaseResource._properties self)
            = deref st properties)
  ∧ (∀ super self properties st r st',
       properties < length (heap st) →
       (∀ m u n p s r' s',
          super m u n p s = (r', s') → heap s' !! properties = heap s !! properties) →
       HbaManager.create E super self properties st = (r, st') →
       heap st' !! properties = heap st !! properties).
Proof.
  split.
  - intros manager properties st Hlt self st'.
    unfold BaseResource.__init__, alloc, now; cbn [heap calls ticks].
    intros [= <- <-]; cbn [BaseResource._properties heap calls ticks].
    unfold deref; cbn [heap].
    repeat split.
    + lia.
    + by rewrite lookup_app_r, Nat.sub_diag by lia.
    + by rewrite lookup_app_l.
    + intros d. rewrite list_lookup_insert_ne by lia.
      by rewrite lookup_app_r, Nat.sub_diag by lia.
  - intros super self properties st r st' Hlt Hsuper.
    rewrite create_unfold. cbn zeta.
    destruct (Session.post E (calls st) _ _) as [e|result].
    { by intros [= <- <-]. }
    destruct ((result ∪ deref st properties) !! "element-uri") as [uri|].
    + unfold Hba.__init__.
      destruct (negb (isinstance_HbaManager (HbaManager.ref self))).
      * intros [= <- <-]; cbn [heap]. by rewrite lookup_app_l.
      * intros Hs. rewrite (Hsuper _ _ _ _ _ _ _ Hs); cbn [heap].
        by rewrite lookup_app_l.
    + intros [= <- <-]; cbn [heap]. by rewrite lookup_app_l.
Qed.

Lemma caller_properties_are_copied_witness :
  (let '(self, st') :=
     BaseResource.__init__ Scenario.up Scenario.partition_manager 0 Scenario.short_store in
   BaseResource._properties self ≠ 0
   ∧ deref st' (BaseResource._properties self) = deref Scenario.short_store 0
   ∧ heap st' !! 0 = heap Scenario.short_store !! 0
   ∧ ∀ d, deref (mkState (<[0 := d]> (heap st')) (calls st') (ticks st'))
            (BaseResource._properties self)
          = deref Scenario.short_store 0)
  ∧ heap (HbaManager.create Scenario.up Hba.BaseResource___init__ Scenario.manager 0
            (mkState [ {[ "name" := VStr "x" ]} ] [] 0)).2 !! 0
    = Some {[ "name" := VStr "x" ]}.
Proof.
  split.
  - refine (proj1 (caller_properties_are_copied Scenario.up)
              Scenario.partition_manager 0 Scenario.short_store _ _ _ _).
    + simpl; lia.
    + reflexivity.
  - refine (proj2 (caller_properties_are_copied Scenario.up)
              Hba.BaseResource___init__ Scenario.manager 0
              (mkState [ {[ "name" := VStr "x" ]} ] [] 0) _ _ _ _ _).
    + simpl; lia.
    + intros m u n p s r' s' [= <- <-]; reflexivity.
    + apply surjective_pairing.
Defined.

(** ** [HbaManager.list] *)

Lemma with_partition_resource_same self :
  HbaManager.with_partition_resource self
    (partition_resource (HbaManager.partition self)) = self.
Proof. by destruct self as [[? ?] ?]. Qed.






Section list_order.
Variable E : Session.t.
Variable resource_class : Hba.init_t.
Variable _matches_filters :
  HbaManager.t → Hba.t → option props → State → outcome bool * Hba.t * State.

(** What [list] relies on in [BaseManager] and in the resource class: a
    resource is constructed with the URI it is given, and filtering does
    not give it another. *)
Hypothesis resource_class_uri : ∀ manager uri name properties st obj st',
  resource_class manager uri name properties st = (Return obj, st') →
  VStr (Hba._uri obj) = uri.
Hypothesis _matches_filters_uri : ∀ self obj filter_args st b obj' st',
  _matches_filters self obj filter_args st = (Return b, obj', st') →
  Hba._uri obj' = Hba._uri obj.



(** Without filtering out and without errors nothing is lost: when every
    resource is constructed and every one matches, the loop returns one
    resource per URI. *)
Lemma list_loop_keeps_all fuel self filter_args uris :
  (∀ manager uri st, ∃ obj st',
     resource_class manager uri None None st = (Return obj, st')) →
  (∀ obj st, ∃ obj' st',
     _matches_filters self obj filter_args st = (Return true, obj', st')) →
  ∀ acc st, ∃ kept st',
    HbaManager.list_loop E resource_class _matches_filters fuel self false
      filter_args uris acc st = (Return (acc ++ kept), st')
    ∧ uris_of kept = uris.
Proof.
  intros Hctor Hmatch.
  induction uris as [|uri uris IH]; intros acc st; simpl.
  { exists [], st. by rewrite app_nil_r. }
  destruct (Hctor (HbaManager.ref self) uri st) as (obj & st1 & Hobj).
  destruct (Hmatch obj st1) as (obj' & st2 & Hobj').
  rewrite Hobj, Hobj'.
  destruct (IH (acc ++ [obj']) st2) as (kept & st3 & -> & Hkept).
  exists (obj' :: kept), st3. split; [by rewrite <- app_assoc|].
  unfold uris_of in *; rewrite fmap_cons, Hkept.
  by rewrite (_matches_filters_uri _ _ _ _ _ _ _ Hobj'),
    (resource_class_uri _ _ _ _ _ _ _ Hobj).
Qed.

End list_order.


(** ** The scenarios, evaluated *)

(** A partition from a listing is asked for ['hba-uris']: one request
    for its full set, and the value from it; the partition is complete
    afterwards, with the new snapshot. *)
Example get_property_pulls_once :
  BaseResource.get_property Scenario.up 3 Scenario.short "hba-uris" Scenario.short_store
  = (Return (VList [VStr "/api/partitions/1/hbas/10"]),
     BaseResource.mk Scenario.partition_manager 1 1000 true,
     mkState (heap Scenario.short_store ++ [Scenario.partition_properties])
       [Get (VStr "/api/partitions/1")] 1).
Proof. vm_compute. reflexivity. Qed.

(** Scenario A with a resource class that works: one bare resource, in
    a new and empty snapshot; no request is sent. *)
Example list_scenario_A :
  HbaManager.list Scenario.up Scenario.resource_class Scenario.drop_11 3
    (Scenario.manager_of 1 true) false None
    (mkState [ ∅; Scenario.partition_properties ] [] 0)
  = (Return [ Hba.mk (BaseResource.mk (HbaManager.ref (Scenario.manager_of 1 true)) 2 0 false)
                "/api/partitions/1/hbas/10" ],
     Scenario.manager_of 1 true,
     mkState [ ∅; Scenario.partition_properties; ∅ ] [] 0).
Proof. vm_compute. reflexivity. Qed.

(** Scenario A in the two files as they stand: the first resource cannot
    be constructed. *)
Example list_scenario_A_with_Hba :
  HbaManager.list Scenario.up Hba.new Scenario.drop_11 3
    (Scenario.manager_of 1 true) false None
    (mkState [ ∅; Scenario.partition_properties ] [] 0)
  = (Raise TypeError, Scenario.manager_of 1 true,
     mkState [ ∅; Scenario.partition_properties ] [] 0).
Proof. vm_compute. reflexivity. Qed.

(** A parent that learns only from its full set that it has no
    ['hba-uris']: KeyError after the one request. *)
Example list_missing_after_pull :
  HbaManager.list
    (Session.mk (fun _ _ => inr {[ "object-uri" := VStr "/api/partitions/1" ]})
       (fun _ _ _ => inl HTTPError) (fun _ _ => inl HTTPError) (fun _ _ => 7%Z))
    Hba.new Scenario.drop_11 3 (Scenario.manager_of 0 false) false None
    Scenario.short_store
  = (Raise (KeyError "hba-uris"),
     HbaManager.mk
       (mkPartition (BaseResource.mk Scenario.partition_manager 1 7 true)
          "/api/partitions/1") 1,
     mkState (heap Scenario.short_store ++ [ {[ "object-uri" := VStr "/api/partitions/1" ]} ])
       [Get (VStr "/api/partitions/1")] 1).
Proof. vm_compute. reflexivity. Qed.

(** The operations of an [Hba] at work: one request each. *)
Example delete_sends_one_request :
  Hba.delete Scenario.up
    (Hba.mk Scenario.bare "/api/partitions/1/hbas/10") Scenario.bare_store
  = (Return tt, Hba.mk Scenario.bare "/api/partitions/1/hbas/10",
     mkState (heap Scenario.bare_store) [Delete (VStr "/api/partitions/1/hbas/10")] 0).
Proof. vm_compute. reflexivity. Qed.

(** * Further properties of the code *)

(** ** [BaseResource]: every outcome of a pull and of a lookup *)

Section BaseResource_outcomes.
Variable E : Session.t.

Import BaseResource.

(** The outcome of [pull_full_properties], case by case: the budget is
    spent, or ['object-uri'] is not to be had, or the one request is
    sent and fails or succeeds. *)
Lemma pull_result fuel self st :
  pull_full_properties E fuel self st =
    match fuel with
    | 0 | 1 => (Raise RecursionError, self, st)
    | S (S _) =>
        match deref st (_properties self) !! "object-uri" with
        | None =>
            (Raise (if _full_properties self then KeyError "object-uri"
                    else RecursionError), self, st)
        | Some uri =>
            match Session.get E (calls st) uri with
            | inl e =>
                (Raise (TransportError e), self,
                 mkState (heap st) (calls st ++ [Get uri]) (ticks st))
            | inr full =>
                (Return tt,
                 mk (_manager self) (length (heap st))
                    (Session.time E (calls st ++ [Get uri]) (ticks st)) true,
                 mkState (heap st ++ [full]) (calls st ++ [Get uri]) (S (ticks st)))
            end
        end
    end.
Proof.
  destruct fuel as [|[|fuel]]; [done|done|].
  destruct (deref st (_properties self) !! "object-uri") as [uri|] eqn:Huri.
  { by apply pull_with_object_uri. }
  destruct (_full_properties self) eqn:Hfull.
  - change (pull_full_properties E (S (S fuel)) self st) with
      (match get_property E (S fuel) self "object-uri" st with
       | (Raise e, self, st) => (Raise e, self, st)
       | (Return uri, self, st) =>
           match session_get E uri st with
           | (inl e, st) => (Raise (TransportError e), self, st)
           | (inr full_properties, st) =>
               let '(copy, st) := alloc full_properties st in
               let '(timestamp, st) := now E st in
               (Return tt, mk (manager self) copy timestamp true, st)
           end
       end).
    by rewrite (get_property_miss E fuel self _ st Hfull Huri).
  - by apply pull_without_object_uri.
Qed.

(** The outcome of [get_property], case by case. *)
Lemma get_property_result fuel self name st :
  get_property E fuel self name st =
    match fuel with
    | 0 => (Raise RecursionError, self, st)
    | S fuel =>
        match deref st (_properties self) !! name with
        | Some v => (Return v, self, st)
        | None =>
            if _full_properties self then (Raise (KeyError name), self, st)
            else
              match fuel with
              | 0 | 1 => (Raise RecursionError, self, st)
              | S (S _) =>
                  match deref st (_properties self) !! "object-uri" with
                  | None => (Raise RecursionError, self, st)
                  | Some uri =>
                      match Session.get E (calls st) uri with
                      | inl e =>
                          (Raise (TransportError e), self,
                           mkState (heap st) (calls st ++ [Get uri]) (ticks st))
                      | inr full =>
                          (match full !! name with
                           | Some v => Return v
                           | None => Raise (KeyError name)
                           end,
                           mk (_manager self) (length (heap st))
                              (Session.time E (calls st ++ [Get uri]) (ticks st)) true,
                           mkState (heap st ++ [full]) (calls st ++ [Get uri])
                             (S (ticks st)))
                      end
                  end
              end
        end
    end.
Proof.
  destruct fuel as [|fuel]; [done|].
  destruct (deref st (_properties self) !! name) as [v|] eqn:Hname.
  { by apply get_property_hit. }
  destruct (_full_properties self) eqn:Hfull.
  { by apply get_property_miss. }
  change (get_property E (S fuel) self name st) with
    (match deref st (_properties self) !! name with
     | Some v => (Return v, self, st)
     | None =>
         if full_properties self then (Raise (KeyError name), self, st)
         else
           match pull_full_properties E fuel self st with
           | (Raise e, self, st) => (Raise e, self, st)
           | (Return _, self, st) =>
               match deref st (_properties self) !! name with
               | Some v => (Return v, self, st)
               | None => (Raise (KeyError name), self, st)
               end
           end
     end).
  unfold full_properties. rewrite Hname, Hfull, pull_result, Hfull.
  destruct fuel as [|[|fuel]]; [done|done|].
  destruct (deref st (_properties self) !! "object-uri") as [uri|]; [|done].
  destruct (Session.get E (calls st) uri) as [e|full]; [done|].
  cbn [_properties]. rewrite deref_snoc. by destruct (full !! name).
Qed.

End BaseResource_outcomes.

Section BaseResource_further.
Variable E : Session.t.

Import BaseResource.

(** X1: [get_property] sends at most one request, whatever the resource,
    the name and the recursion budget. Either nothing changes at all, or
    one GET goes to the snapshot's ['object-uri']: if it fails, only the
    list of requests has grown; if it succeeds, the answer is a new
    dictionary at the end of the store, the resource is complete, and the
    outcome is the answer's value for the name, or KeyError. *)
Theorem get_property_at_most_one_request fuel self name st :
  let '(r, self', st') := get_property E fuel self name st in
  (self' = self ∧ st' = st)
  ∨ ∃ uri,
      deref st (_properties self) !! "object-uri" = Some uri
      ∧ calls st' = calls st ++ [Get uri]
      ∧ match Session.get E (calls st) uri with
        | inl e =>
            r = Raise (TransportError e) ∧ self' = self
            ∧ heap st' = heap st ∧ ticks st' = ticks st
        | inr full =>
            r = match full !! name with
                | Some v => Return v
                | None => Raise (KeyError name)
                end
            ∧ self' = mk (_manager self) (length (heap st))
                        (Session.time E (calls st ++ [Get uri]) (ticks st)) true
            ∧ heap st' = heap st ++ [full] ∧ ticks st' = S (ticks st)
        end.
Proof.
  rewrite get_property_result.
  destruct fuel as [|fuel]; [by left|].
  destruct (deref st (_properties self) !! name); [by left|].
  destruct (_full_properties self); [by left|].
  destruct fuel as [|[|fuel]]; [by left|by left|].
  destruct (deref st (_properties self) !! "object-uri") as [uri|] eqn:Huri;
    [|by left].
  destruct (Session.get E (calls st) uri) as [e|full] eqn:Hget;
    right; exists uri; cbn [calls heap ticks]; by rewrite Hget.
Qed.

(** X2: KeyError from [get_property] is about the name that was asked
    for, and means that the property is not in the full set: the resource
    is complete then, and its snapshot has no such property. *)
Theorem get_property_KeyError_means_absent fuel self name st k self' st' :
  get_property E fuel self name st = (Raise (KeyError k), self', st') →
  k = name
  ∧ _full_properties self' = true
  ∧ deref st' (_properties self') !! name = None.
Proof.
  rewrite get_property_result.
  destruct fuel as [|fuel]; [done|].
  destruct (deref st (_properties self) !! name) eqn:Hname; [done|].
  destruct (_full_properties self) eqn:Hfull.
  { by intros [= <- <- <-]. }
  destruct fuel as [|[|fuel]]; [done|done|].
  destruct (deref st (_properties self) !! "object-uri") as [uri|]; [|done].
  destruct (Session.get E (calls st) uri) as [e|full]; [done|].
  destruct (full !! name) eqn:Hfullname; [done|].
  intros [= <- <- <-]. cbn [_properties _full_properties].
  by rewrite deref_snoc.
Qed.

(** X3: a value that [get_property] returned is in the snapshot
    afterwards: asking again returns it again, with no request and no
    change, on any budget. *)
Theorem get_property_then_cached fuel self name st v self' st' :
  get_property E fuel self name st = (Return v, self', st') →
  deref st' (_properties self') !! name = Some v
  ∧ ∀ fuel', get_property E (S fuel') self' name st' = (Return v, self', st').
Proof.
  intros Hget.
  assert (deref st' (_properties self') !! name = Some v) as Hv.
  { revert Hget. rewrite get_property_result.
    destruct fuel as [|fuel]; [done|].
    destruct (deref st (_properties self) !! name) eqn:Hname.
    { by intros [= <- <- <-]. }
    destruct (_full_properties self); [done|].
    destruct fuel as [|[|fuel]]; [done|done|].
    destruct (deref st (_properties self) !! "object-uri") as [uri|]; [|done].
    destruct (Session.get E (calls st) uri) as [e|full]; [done|].
    destruct (full !! name) eqn:Hfullname; [|done].
    intros [= <- <- <-]. cbn [_properties]. by rewrite deref_snoc. }
  split; [done|]. intros fuel'. by apply get_property_hit.
Qed.

(** X4: a pull never writes into a dictionary that exists. It leaves
    every dictionary of the store as it is, the old snapshot included,
    and on success makes a new one the snapshot: a dictionary taken from
    [properties] before the pull keeps the old content. The manager
    stays, and a complete resource stays complete. *)
Theorem pull_keeps_old_dictionaries fuel self st :
  let '(r, self', st') := pull_full_properties E fuel self st in
  (∀ l d, heap st !! l = Some d → heap st' !! l = Some d)
  ∧ _manager self' = _manager self
  ∧ (_full_properties self = true → _full_properties self' = true)
  ∧ (r = Return tt →
     _properties self' = length (heap st)
     ∧ heap st !! _properties self' = None
     ∧ _full_properties self' = true).
Proof.
  rewrite pull_result.
  destruct fuel as [|[|fuel]]; [done|done|].
  destruct (deref st (_properties self) !! "object-uri") as [uri|]; [|done].
  destruct (Session.get E (calls st) uri) as [e|full]; [done|].
  cbn [heap _manager _full_properties _properties]. repeat split; try done.
  - intros l d Hl. by apply lookup_app_l_Some.
  - by apply lookup_ge_None_2.
Qed.

(** X5: a successful pull replaces the snapshot, it does not merge: the
    snapshot is then exactly the answer to the GET for ['object-uri'],
    and a property that the answer does not have is gone, whatever the
    old snapshot had: asking for it raises KeyError with no request. *)
Theorem pull_replaces_snapshot fuel self st self' st' :
  pull_full_properties E fuel self st = (Return tt, self', st') →
  ∃ uri full,
    deref st (_properties self) !! "object-uri" = Some uri
    ∧ Session.get E (calls st) uri = inr full
    ∧ deref st' (_properties self') = full
    ∧ _properties_timestamp self' = Session.time E (calls st') (ticks st)
    ∧ ∀ name fuel',
        full !! name = None →
        get_property E (S fuel') self' name st' = (Raise (KeyError name), self', st').
Proof.
  rewrite pull_result.
  destruct fuel as [|[|fuel]]; [done|done|].
  destruct (deref st (_properties self) !! "object-uri") as [uri|]; [|done].
  destruct (Session.get E (calls st) uri) as [e|full] eqn:Hget; [done|].
  intros [= <- <-]. exists uri, full.
  cbn [_properties _properties_timestamp calls]. rewrite deref_snoc.
  repeat split; try done.
  intros name fuel' Hname. apply get_property_miss; [done|].
  cbn [_properties]. by rewrite deref_snoc.
Qed.

(** X6: a pull does not look at [full_properties]; it looks for
    ['object-uri'] in the snapshot it has. After a pull whose answer has
    no ['object-uri'] the resource cannot be pulled again: the next pull
    raises KeyError for ['object-uri'] and sends nothing. *)
Theorem pull_again_needs_object_uri fuel self st self' st' :
  pull_full_properties E fuel self st = (Return tt, self', st') →
  deref st' (_properties self') !! "object-uri" = None →
  ∀ fuel',
    pull_full_properties E (S (S fuel')) self' st'
    = (Raise (KeyError "object-uri"), self', st').
Proof.
  intros Hpull Huri fuel'.
  assert (_full_properties self' = true) as Hfull.
  { revert Hpull. rewrite pull_result.
    destruct fuel as [|[|fuel]]; [done|done|].
    destruct (deref st (_properties self) !! "object-uri") as [uri|]; [|done].
    destruct (Session.get E (calls st) uri) as [e|full]; [done|].
    by intros [= <- <-]. }
  rewrite pull_result. by rewrite Huri, Hfull.
Qed.

(** X7: a new resource is incomplete, has the manager it was given and
    the time of the clock, and was made without a request; and it
    answers for every property of the input with the input's value,
    again without a request. *)
Theorem init_then_get_property manager properties st :
  let '(self, st') := __init__ E manager properties st in
  _manager self = manager
  ∧ _full_properties self = false
  ∧ _properties_timestamp self = Session.time E (calls st) (ticks st)
  ∧ calls st' = calls st
  ∧ ∀ name v fuel,
      deref st properties !! name = Some v →
      get_property E (S fuel) self name st' = (Return v, self, st').
Proof.
  unfold __init__, alloc, now; cbn [heap calls ticks].
  repeat split; try done.
  intros name v fuel Hname. apply get_property_hit.
  cbn [_properties]. by rewrite deref_snoc.
Qed.

End BaseResource_further.

Lemma get_property_KeyError_means_absent_witness :
  "status" = "status"
  ∧ BaseResource._full_properties (BaseResource.mk Scenario.partition_manager 1 1000 true) = true
  ∧ deref (mkState (heap Scenario.short_store ++ [Scenario.partition_properties])
             [Get (VStr "/api/partitions/1")] 1) 1 !! "status" = None.
Proof.
  apply (get_property_KeyError_means_absent Scenario.up 3 Scenario.short "status"
           Scenario.short_store "status"
           (BaseResource.mk Scenario.partition_manager 1 1000 true)
           (mkState (heap Scenario.short_store ++ [Scenario.partition_properties])
              [Get (VStr "/api/partitions/1")] 1)).
  vm_compute; reflexivity.
Defined.

Lemma get_property_then_cached_witness :
  let self' := BaseResource.mk Scenario.partition_manager 1 1000 true in
  let st' := mkState (heap Scenario.short_store ++ [Scenario.partition_properties])
               [Get (VStr "/api/partitions/1")] 1 in
  BaseResource.get_property Scenario.up 1 self' "hba-uris" st'
  = (Return (VList [VStr "/api/partitions/1/hbas/10"]), self', st').
Proof.
  refine (proj2 (get_property_then_cached Scenario.up 3 Scenario.short "hba-uris"
                   Scenario.short_store (VList [VStr "/api/partitions/1/hbas/10"])
                   (BaseResource.mk Scenario.partition_manager 1 1000 true)
                   (mkState (heap Scenario.short_store ++ [Scenario.partition_properties])
                      [Get (VStr "/api/partitions/1")] 1) _) 0).
  vm_compute; reflexivity.
Defined.

Lemma pull_replaces_snapshot_witness :
  let self' := BaseResource.mk Scenario.partition_manager 1 0 true in
  let st' := mkState (heap Scenario.short_store ++ [ {[ "name" := VStr "part1" ]} ])
               [Get (VStr "/api/partitions/1")] 1 in
  ∃ uri full,
    deref Scenario.short_store 0 !! "object-uri" = Some uri
    ∧ Session.get Listing.anonymous [] uri = inr full
    ∧ deref st' 1 = full
    ∧ 0%Z = Session.time Listing.anonymous (calls st') 0
    ∧ ∀ name fuel',
        full !! name = None →
        BaseResource.get_property Listing.anonymous (S fuel') self' name st'
        = (Raise (KeyError name), self', st').
Proof.
  apply (pull_replaces_snapshot Listing.anonymous 2 Scenario.short Scenario.short_store
           (BaseResource.mk Scenario.partition_manager 1 0 true)
           (mkState (heap Scenario.short_store ++ [ {[ "name" := VStr "part1" ]} ])
              [Get (VStr "/api/partitions/1")] 1)).
  vm_compute; reflexivity.
Defined.

Lemma pull_again_needs_object_uri_witness :
  let self' := BaseResource.mk Scenario.partition_manager 1 0 true in
  let st' := mkState (heap Scenario.short_store ++ [ {[ "name" := VStr "part1" ]} ])
               [Get (VStr "/api/partitions/1")] 1 in
  BaseResource.pull_full_properties Listing.anonymous 2 self' st'
  = (Raise (KeyError "object-uri"), self', st').
Proof.
  refine (pull_again_needs_object_uri Listing.anonymous 2 Scenario.short
            Scenario.short_store
            (BaseResource.mk Scenario.partition_manager 1 0 true)
            (mkState (heap Scenario.short_store ++ [ {[ "name" := VStr "part1" ]} ])
               [Get (VStr "/api/partitions/1")] 1) _ _ 0);
    vm_compute; reflexivity.
Defined.

(** ** [HbaManager.list]: what comes back *)

(** A pull that succeeds leaves an [Hba] complete. *)
Lemma Hba_pull_success_complete E fuel obj st obj' st' :
  Hba.pull_full_properties E fuel obj st = (Return tt, obj', st') →
  BaseResource._full_properties (Hba.base obj') = true.
Proof.
  unfold Hba.pull_full_properties. rewrite pull_result.
  destruct fuel as [|[|fuel]]; [done|done|].
  destruct (deref st (BaseResource._properties (Hba.base obj)) !! "object-uri")
    as [uri|]; [|done].
  destruct (Session.get E (calls st) uri) as [e|full]; [done|].
  by intros [= <- <-].
Qed.

Section list_result.
Variable E : Session.t.
Variable resource_class : Hba.init_t.
Variable _matches_filters :
  HbaManager.t → Hba.t → option props → State → outcome bool * Hba.t * State.

Lemma list_loop_length fuel self full filter_args uris :
  ∀ acc st objs st',
    HbaManager.list_loop E resource_class _matches_filters fuel self full
      filter_args uris acc st = (Return objs, st') →
    (length objs ≤ length acc + length uris)%nat.
Proof.
  induction uris as [|uri uris IH]; intros acc st objs st'; simpl.
  { intros [= <- <-]. lia. }
  destruct (resource_class (HbaManager.ref self) uri None None st)
    as [[obj|e] st1]; [|done].
  destruct (_matches_filters self obj filter_args st1)
    as [[[[|]|e] obj'] st2]; [| |done].
  - destruct full.
    + destruct (Hba.pull_full_properties E fuel obj' st2)
        as [[[[]|e] obj''] st3]; [|done].
      intros Hloop. apply IH in Hloop. rewrite length_app in Hloop. simpl in Hloop. lia.
    + intros Hloop. apply IH in Hloop. rewrite length_app in Hloop. simpl in Hloop. lia.
  - intros Hloop. apply IH in Hloop. lia.
Qed.

Lemma list_loop_complete fuel self filter_args uris :
  ∀ acc st objs st',
    Forall (fun obj => BaseResource._full_properties (Hba.base obj) = true) acc →
    HbaManager.list_loop E resource_class _matches_filters fuel self true
      filter_args uris acc st = (Return objs, st') →
    Forall (fun obj => BaseResource._full_properties (Hba.base obj) = true) objs.
Proof.
  induction uris as [|uri uris IH]; intros acc st objs st' Hacc; simpl.
  { by intros [= <- <-]. }
  destruct (resource_class (HbaManager.ref self) uri None None st)
    as [[obj|e] st1]; [|done].
  destruct (_matches_filters self obj filter_args st1)
    as [[[[|]|e] obj'] st2]; [| |done].
  - destruct (Hba.pull_full_properties E fuel obj' st2)
      as [[[[]|e] obj''] st3] eqn:Hpull; [|done].
    apply IH. apply Forall_app. split; [done|].
    apply Forall_singleton. by eapply Hba_pull_success_complete.
  - by apply IH.
Qed.

(** X8: whatever the resource class and the filter do, [list] returns
    at most one resource for each element of the value it read from
    ['hba-uris'], and with [full_properties=True] every resource that it
    returns is complete. *)
Theorem list_result_bounded_and_complete fuel self full filter_args st :
  match HbaManager.list E resource_class _matches_filters fuel self full
          filter_args st,
        BaseResource.get_property E fuel
          (partition_resource (HbaManager.partition self)) "hba-uris" st with
  | (Return objs, _, _), (Return uris, _, _) =>
      (length objs ≤ length (default [] (iterate uris)))%nat
      ∧ (full = true →
         Forall (fun obj => BaseResource._full_properties (Hba.base obj) = true) objs)
  | (Return _, _, _), (Raise _, _, _) => False
  | (Raise _, _, _), _ => True
  end.
Proof.
  unfold HbaManager.list.
  destruct (BaseResource.get_property E fuel _ "hba-uris" st)
    as [[[uris|e] p] st1]; [|done].
  destruct (truthy uris).
  - destruct (iterate uris) as [us|]; [|done]. cbn [default from_option id].
    destruct (HbaManager.list_loop _ _ _ _ _ _ _ us [] st1)
      as [[objs|e] st2] eqn:Hloop; [|done].
    split.
    + by apply list_loop_length in Hloop.
    + intros ->. by eapply list_loop_complete in Hloop.
  - split; [simpl; lia|]. by intros _.
Qed.

(** X9: the parent may learn its ['hba-uris'] only from its full set.
    Then [list] sends one GET for the parent, before any resource is
    constructed, runs over the sequence of the answer, and gives the
    parent back complete, with the answer as its snapshot. *)
Theorem list_completes_parent fuel self full filter_args st uri answer us :
  let parent := partition_resource (HbaManager.partition self) in
  let snapshot := deref st (BaseResource._properties parent) in
  BaseResource._full_properties parent = false →
  snapshot !! "hba-uris" = None →
  snapshot !! "object-uri" = Some uri →
  Session.get E (calls st) uri = inr answer →
  answer !! "hba-uris" = Some (VList us) →
  let self' :=
    HbaManager.with_partition_resource self
      (BaseResource.mk (BaseResource._manager parent) (length (heap st))
         (Session.time E (calls st ++ [Get uri]) (ticks st)) true) in
  let st' := mkState (heap st ++ [answer]) (calls st ++ [Get uri]) (S (ticks st)) in
  HbaManager.list E resource_class _matches_filters (S (S (S fuel))) self full
    filter_args st
  = (let '(r, st'') :=
       HbaManager.list_loop E resource_class _matches_filters (S (S (S fuel)))
         self' full filter_args us [] st' in
     (r, self', st'')).
Proof.
  cbn zeta. intros Hfull Hnone Huri Hget Hanswer. unfold HbaManager.list.
  rewrite (get_property_retry E fuel _ _ uri st Hfull Hnone Huri).
  cbn zeta. rewrite Hget, Hanswer.
  destruct us as [|u us]; [done|]. done.
Qed.

End list_result.

(** X10: in the two files as they stand, where the resource class of the
    manager is [Hba], a listing that is not empty cannot be returned: the
    first resource fails to be constructed, and [list] raises TypeError
    before the filter is asked and before any request. *)
Theorem list_with_Hba_raises E mf fuel self full filter_args st u us :
  deref st (BaseResource._properties (partition_resource (HbaManager.partition self)))
    !! "hba-uris" = Some (VList (u :: us)) →
  HbaManager.list E Hba.new mf (S fuel) self full filter_args st
  = (Raise TypeError, self, st).
Proof.
  intros Huris. unfold HbaManager.list.
  rewrite (get_property_hit E fuel _ _ _ st Huris).
  cbn [truthy iterate HbaManager.list_loop].
  rewrite Hba_new_raises. cbn.
  by rewrite with_partition_resource_same.
Qed.

(** ** [HbaManager.create]: the ways out *)

(** X11: [create] ends early in two ways, both before [Hba] is
    constructed. When the POST fails, its error is raised and nothing was
    copied. When the POST succeeds and neither its answer nor the input
    has ['element-uri'], KeyError is raised for ['element-uri']; the
    merged copy was made by then, and the caller's dictionary is as it
    was. *)
Theorem create_ends_early E super self properties st :
  let uri := VStr (partition_uri (HbaManager.partition self) +:+ "/hbas") in
  let body := deref st properties in
  (∀ e,
     Session.post E (calls st) uri body = inl e →
     HbaManager.create E super self properties st
     = (Raise (TransportError e),
        mkState (heap st) (calls st ++ [Post uri body]) (ticks st)))
  ∧ (∀ result,
       Session.post E (calls st) uri body = inr result →
       result !! "element-uri" = None →
       body !! "element-uri" = None →
       HbaManager.create E super self properties st
       = (Raise (KeyError "element-uri"),
          mkState (heap st ++ [result ∪ body]) (calls st ++ [Post uri body])
            (ticks st))).
Proof.
  cbn zeta. split.
  - intros e Hpost. rewrite create_unfold. cbn zeta. by rewrite Hpost.
  - intros result Hpost Hresult Hbody. rewrite create_unfold. cbn zeta.
    rewrite Hpost. by rewrite union_lookup_right, Hbody.
Qed.

(** X12: when the POST succeeds, [create] constructs the resource with
    itself as manager, no name, the merged copy as properties, and as
    URI the ['element-uri'] of the answer, or that of the input when the
    answer has none. The check of the manager in [Hba.__init__] cannot
    fail here: the outcome of [create] is that of the base initialiser. *)
Theorem create_constructs_with E super self properties st result u :
  let uri := VStr (partition_uri (HbaManager.partition self) +:+ "/hbas") in
  let body := deref st properties in
  Session.post E (calls st) uri body = inr result →
  result !! "element-uri" = Some u
  ∨ (result !! "element-uri" = None ∧ body !! "element-uri" = Some u) →
  HbaManager.create E super self properties st
  = super (HbaManager.ref self) u None (Some (length (heap st)))
      (mkState (heap st ++ [result ∪ body]) (calls st ++ [Post uri body]) (ticks st)).
Proof.
  cbn zeta. intros Hpost Hu. rewrite create_unfold. cbn zeta. rewrite Hpost.
  assert ((result ∪ deref st properties) !! "element-uri" = Some u) as ->.
  { destruct Hu as [Hu|[Hnone Hu]].
    - by apply union_lookup_left.
    - by rewrite union_lookup_right. }
  by apply Hba_init_HbaManager.
Qed.

(** ** [Hba]: the operations and the snapshot *)

(** X13: the operations on the HMC do not invalidate the snapshot. After
    [delete], [update_properties] or [reassign_port], whether the request
    failed or not, a property of the snapshot is still returned as it
    was, with no further request. *)
Theorem Hba_operations_then_cached_read E self properties port st name v fuel :
  deref st (BaseResource._properties (Hba.base self)) !! name = Some v →
  (let '(_, self', st') := Hba.delete E self st in
   BaseResource.get_property E (S fuel) (Hba.base self') name st'
   = (Return v, Hba.base self', st'))
  ∧ (let '(_, self', st') := Hba.update_properties E self properties st in
     BaseResource.get_property E (S fuel) (Hba.base self') name st'
     = (Return v, Hba.base self', st'))
  ∧ (let '(_, self', st') := Hba.reassign_port E self port st in
     BaseResource.get_property E (S fuel) (Hba.base self') name st'
     = (Return v, Hba.base self', st')).
Proof.
  intros Hv.
  unfold Hba.delete, Hba.update_properties, Hba.reassign_port,
    session_delete, session_post.
  repeat split.
  - destruct (Session.delete E (calls st) _); by apply get_property_hit.
  - destruct (Session.post E (calls st) _ (deref st properties));
      by apply get_property_hit.
  - destruct (Session.post E (calls st) _ _); by apply get_property_hit.
Qed.

Lemma list_result_bounded_and_complete_witness :
  let manager := Scenario.manager_of 0 true in
  let hba snapshot timestamp number :=
    Hba.mk (BaseResource.mk (HbaManager.ref manager) snapshot timestamp true)
      ("/api/partitions/1/hbas/" +:+ number) in
  (length [hba 2 0%Z "10"; hba 5 1%Z "12"] ≤ 3)%nat
  ∧ (true = true →
     Forall (fun obj => BaseResource._full_properties (Hba.base obj) = true)
       [hba 2 0%Z "10"; hba 5 1%Z "12"]).
Proof.
  exact (list_result_bounded_and_complete Listing.session Listing.resource_class
           Scenario.drop_11 3 (Scenario.manager_of 0 true) true None
           Scenario.three_hbas).
Defined.

Lemma list_completes_parent_witness :
  HbaManager.list Scenario.up Scenario.resource_class Scenario.drop_11 3
    (Scenario.manager_of 0 false) false None Scenario.short_store
  = (Return [ Hba.mk (BaseResource.mk (HbaManager.ref (Scenario.manager_of 0 false)) 2 0 false)
                "/api/partitions/1/hbas/10" ],
     HbaManager.mk
       (mkPartition (BaseResource.mk Scenario.partition_manager 1 1000 true)
          "/api/partitions/1") 1,
     mkState (heap Scenario.short_store ++ [Scenario.partition_properties; ∅])
       [Get (VStr "/api/partitions/1")] 1).
Proof.
  rewrite (list_completes_parent Scenario.up Scenario.resource_class Scenario.drop_11
             0 (Scenario.manager_of 0 false) false None Scenario.short_store
             (VStr "/api/partitions/1") Scenario.partition_properties
             [VStr "/api/partitions/1/hbas/10"]);
    vm_compute; reflexivity.
Defined.

Lemma list_with_Hba_raises_witness :
  HbaManager.list Scenario.down Hba.new Scenario.drop_11 1
    (Scenario.manager_of 0 true) true None Scenario.three_hbas
  = (Raise TypeError, Scenario.manager_of 0 true, Scenario.three_hbas).
Proof.
  apply (list_with_Hba_raises Scenario.down Scenario.drop_11 0
           (Scenario.manager_of 0 true) true None Scenario.three_hbas
           (VStr "/api/partitions/1/hbas/10")
           [VStr "/api/partitions/1/hbas/11"; VStr "/api/partitions/1/hbas/12"]).
  vm_compute; reflexivity.
Defined.

Lemma create_ends_early_witness :
  let st := mkState [ {[ "name" := VStr "x" ]} ] [] 0 in
  let post := Post (VStr "/api/partitions/1/hbas") {[ "name" := VStr "x" ]} in
  HbaManager.create Scenario.down Scenario.resource_class Scenario.manager 0 st
  = (Raise (TransportError ConnectionError), mkState (heap st) [post] 0)
  ∧ HbaManager.create Listing.anonymous Scenario.resource_class Scenario.manager 0 st
    = (Raise (KeyError "element-uri"),
       mkState [ {[ "name" := VStr "x" ]}; {[ "name" := VStr "x" ]} ] [post] 0).
Proof.
  split.
  - etransitivity.
    + apply (proj1 (create_ends_early Scenario.down Scenario.resource_class
                      Scenario.manager 0 (mkState [ {[ "name" := VStr "x" ]} ] [] 0))
               ConnectionError).
      vm_compute; reflexivity.
    + vm_compute; reflexivity.
  - rewrite (proj2 (create_ends_early Listing.anonymous Scenario.resource_class
                      Scenario.manager 0 (mkState [ {[ "name" := VStr "x" ]} ] [] 0))
               {[ "name" := VStr "x" ]});
      vm_compute; reflexivity.
Defined.

Lemma create_constructs_with_witness :
  let st := mkState [ {[ "name" := VStr "x" ]} ] [] 0 in
  HbaManager.create Scenario.up Scenario.resource_class Scenario.manager 0 st
  = Scenario.resource_class (HbaManager.ref Scenario.manager)
      (VStr "/api/partitions/1/hbas/99") None (Some 1)
      (mkState [ {[ "name" := VStr "x" ]}; Scenario.created ]
         [Post (VStr "/api/partitions/1/hbas") {[ "name" := VStr "x" ]}] 0).
Proof.
  cbv zeta.
  rewrite (create_constructs_with Scenario.up Scenario.resource_class Scenario.manager 0
             (mkState [ {[ "name" := VStr "x" ]} ] [] 0) Scenario.created
             (VStr "/api/partitions/1/hbas/99")).
  - vm_compute; reflexivity.
  - vm_compute; reflexivity.
  - left. vm_compute; reflexivity.
Defined.

Lemma Hba_operations_then_cached_read_witness :
  BaseResource.get_property Scenario.down 1 Scenario.short "name"
    (mkState (heap Scenario.short_store) [Delete (VStr "/api/partitions/1/hbas/10")] 0)
  = (Return (VStr "part1"), Scenario.short,
     mkState (heap Scenario.short_store) [Delete (VStr "/api/partitions/1/hbas/10")] 0).
Proof.
  exact (proj1 (Hba_operations_then_cached_read Scenario.down
                  (Hba.mk Scenario.short "/api/partitions/1/hbas/10") 0
                  (mkPort "/api/adapters/1/storage-ports/0") Scenario.short_store
                  "name" (VStr "part1") 0 eq_refl)).
Defined.

(** ** [HbaManager.list]: the guard and the requests *)

(** X14: the guard [if uris:] and the loop [for uri in uris] on a value
    that is not a sequence of URIs. A value of ['hba-uris'] that Python
    takes for false (None, an empty list, 0, an empty string) gives the
    empty list, with no request and nothing constructed; a value that it
    takes for true and cannot iterate over (a number, True) gives
    TypeError. *)
Theorem list_guard E rc mf fuel self full filter_args st v :
  deref st (BaseResource._properties (partition_resource (HbaManager.partition self)))
    !! "hba-uris" = Some v →
  (truthy v = false →
   HbaManager.list E rc mf (S fuel) self full filter_args st = (Return [], self, st))
  ∧ (truthy v = true → iterate v = None →
     HbaManager.list E rc mf (S fuel) self full filter_args st
     = (Raise TypeError, self, st)).
Proof.
  intros Hv. unfold HbaManager.list.
  rewrite (get_property_hit E fuel _ _ v st Hv), with_partition_resource_same.
  split.
  - by intros ->.
  - by intros -> ->.
Qed.

Lemma list_guard_witness :
  let st := mkState [ {[ "hba-uris" := VNone ]}; {[ "hba-uris" := VInt 7 ]} ] [] 0 in
  HbaManager.list Scenario.down Hba.new Scenario.drop_11 1
    (Scenario.manager_of 0 true) true None st
  = (Return [], Scenario.manager_of 0 true, st)
  ∧ HbaManager.list Scenario.down Hba.new Scenario.drop_11 1
      (Scenario.manager_of 1 true) true None st
    = (Raise TypeError, Scenario.manager_of 1 true, st).
Proof.
  cbv zeta. split.
  - refine (proj1 (list_guard Scenario.down Hba.new Scenario.drop_11 0
                     (Scenario.manager_of 0 true) true None
                     (mkState [ {[ "hba-uris" := VNone ]}; {[ "hba-uris" := VInt 7 ]} ] [] 0)
                     VNone _) _); vm_compute; reflexivity.
  - refine (proj2 (list_guard Scenario.down Hba.new Scenario.drop_11 0
                     (Scenario.manager_of 1 true) true None
                     (mkState [ {[ "hba-uris" := VNone ]}; {[ "hba-uris" := VInt 7 ]} ] [] 0)
                     (VInt 7) _) _ _); vm_compute; reflexivity.
Defined.

(** A pull sends at most one request. *)
Lemma Hba_pull_calls E fuel obj st r obj' st' :
  Hba.pull_full_properties E fuel obj st = (r, obj', st') →
  (length (calls st') ≤ S (length (calls st)))%nat.
Proof.
  unfold Hba.pull_full_properties. rewrite pull_result.
  destruct fuel as [|[|fuel]]; [by intros [= <- <- <-]; lia..|].
  destruct (deref st (BaseResource._properties (Hba.base obj)) !! "object-uri")
    as [uri|]; [|by intros [= <- <- <-]; lia].
  destruct (Session.get E (calls st) uri) as [e|full];
    intros [= <- <- <-]; cbn [calls]; rewrite length_app; simpl; lia.
Qed.

Section list_requests.
Variable E : Session.t.
Variable resource_class : Hba.init_t.
Variable _matches_filters :
  HbaManager.t → Hba.t → option props → State → outcome bool * Hba.t * State.

(** A resource class and a filter that send no request of their own. *)
Hypothesis resource_class_quiet : ∀ manager uri name properties st r st',
  resource_class manager uri name properties st = (r, st') → calls st' = calls st.
Hypothesis _matches_filters_quiet : ∀ self obj filter_args st r obj' st',
  _matches_filters self obj filter_args st = (r, obj', st') → calls st' = calls st.

Lemma list_loop_requests fuel self full filter_args uris :
  ∀ acc st r st',
    HbaManager.list_loop E resource_class _matches_filters fuel self full
      filter_args uris acc st = (r, st') →
    (length (calls st') ≤
     length (calls st) + (if full then length uris else 0))%nat.
Proof.
  induction uris as [|uri uris IH]; intros acc st r st'; simpl.
  { intros [= <- <-]. lia. }
  destruct (resource_class (HbaManager.ref self) uri None None st)
    as [[obj|e] st1] eqn:Hctor.
  2: { intros [= <- <-]. rewrite (resource_class_quiet _ _ _ _ _ _ _ Hctor). lia. }
  destruct (_matches_filters self obj filter_args st1)
    as [[[[|]|e] obj'] st2] eqn:Hmatch.
  3: { intros [= <- <-].
       rewrite (_matches_filters_quiet _ _ _ _ _ _ _ Hmatch),
         (resource_class_quiet _ _ _ _ _ _ _ Hctor). lia. }
  - destruct full.
    + destruct (Hba.pull_full_properties E fuel obj' st2)
        as [[[[]|e] obj''] st3] eqn:Hpull.
      * intros Hloop. apply IH in Hloop. apply Hba_pull_calls in Hpull.
        rewrite (_matches_filters_quiet _ _ _ _ _ _ _ Hmatch),
          (resource_class_quiet _ _ _ _ _ _ _ Hctor) in Hpull. lia.
      * intros [= <- <-]. apply Hba_pull_calls in Hpull.
        rewrite (_matches_filters_quiet _ _ _ _ _ _ _ Hmatch),
          (resource_class_quiet _ _ _ _ _ _ _ Hctor) in Hpull. lia.
    + intros Hloop. apply IH in Hloop.
      rewrite (_matches_filters_quiet _ _ _ _ _ _ _ Hmatch),
        (resource_class_quiet _ _ _ _ _ _ _ Hctor) in Hloop. lia.
  - intros Hloop. apply IH in Hloop.
    rewrite (_matches_filters_quiet _ _ _ _ _ _ _ Hmatch),
      (resource_class_quiet _ _ _ _ _ _ _ Hctor) in Hloop.
    destruct full; lia.
Qed.

(** X15: the requests of [list] itself. With ['hba-uris'] in the
    parent's snapshot, and a resource class and a filter that send
    nothing, [list] with [full_properties=False] sends no request at
    all, and with [full_properties=True] at most one for each URI,
    whether it returns or raises; the parent is not touched. *)
Theorem list_requests fuel self full filter_args st uris r self' st' :
  deref st (BaseResource._properties (partition_resource (HbaManager.partition self)))
    !! "hba-uris" = Some (VList uris) →
  HbaManager.list E resource_class _matches_filters (S fuel) self full filter_args st
  = (r, self', st') →
  self' = self
  ∧ (length (calls st') ≤ length (calls st) + (if full then length uris else 0))%nat.
Proof.
  intros Huris. unfold HbaManager.list.
  rewrite (get_property_hit E fuel _ _ _ st Huris), with_partition_resource_same.
  destruct uris as [|u uris]; cbn [truthy iterate].
  { intros [= <- <- <-]. split; [done|lia]. }
  destruct (HbaManager.list_loop _ _ _ _ _ _ _ (u :: uris) [] st)
    as [r0 st0] eqn:Hloop.
  intros [= <- <- <-]. split; [done|]. by apply list_loop_requests in Hloop.
Qed.

End list_requests.

Lemma list_requests_witness :
  Scenario.manager_of 0 true = Scenario.manager_of 0 true
  ∧ (length [Get (VStr "/api/partitions/1/hbas/10"); Get (VStr "/api/partitions/1/hbas/12")]
     ≤ length (calls Scenario.three_hbas) + 3)%nat.
Proof.
  refine (list_requests Listing.session Listing.resource_class Scenario.drop_11 _ _
            2 (Scenario.manager_of 0 true) true None Scenario.three_hbas
            [VStr "/api/partitions/1/hbas/10"; VStr "/api/partitions/1/hbas/11";
             VStr "/api/partitions/1/hbas/12"]
            (Return [ Hba.mk (BaseResource.mk (HbaManager.ref (Scenario.manager_of 0 true))
                                2 0 true) "/api/partitions/1/hbas/10";
                      Hba.mk (BaseResource.mk (HbaManager.ref (Scenario.manager_of 0 true))
                                5 1 true) "/api/partitions/1/hbas/12" ])
            (Scenario.manager_of 0 true)
            (mkState
               (heap Scenario.three_hbas ++
                [ {[ "object-uri" := VStr "/api/partitions/1/hbas/10" ]};
                  {[ "object-uri" := VStr "/api/partitions/1/hbas/10";
                     "device-number" := VStr "01" ]};
                  {[ "object-uri" := VStr "/api/partitions/1/hbas/11" ]};
                  {[ "object-uri" := VStr "/api/partitions/1/hbas/12" ]};
                  {[ "object-uri" := VStr "/api/partitions/1/hbas/12";
                     "device-number" := VStr "01" ]} ])
               [Get (VStr "/api/partitions/1/hbas/10"); Get (VStr "/api/partitions/1/hbas/12")]
               2) _ _).
  - intros manager uri name properties st r st'. unfold Listing.resource_class.
    destruct uri; intros [= <- <-]; reflexivity.
  - intros self obj filter_args st r obj' st'. unfold Scenario.drop_11.
    intros [= <- <- <-]. reflexivity.
  - vm_compute; reflexivity.
  - vm_compute; reflexivity.
Defined.
